(** * The Kubernetes workload scaler of KEDA

    A shallow embedding of [pkg/scalers/kubernetes_workload_scaler.go]:
    the metadata parser, the pod counter, the metric spec and the metric
    sample, followed by the properties of the adapter.

    Conventions of the embedding:
    - a Go [int] / [int64] is a [Z] kept in the signed 64-bit range by
      [wrap_int];
    - a Go function returning [(x, err)] returns a pair whose second
      component is [None] for a nil error;
    - a Go [error] is identified with the text of its [Error()] method;
    - [map[string]string] is a [gmap string string]; indexing a missing key
      yields the empty string, as in Go;
    - the two interfaces the scaler consumes, [labels.Selector] (with
      [labels.Parse]) and [client.Client], are a type class and a record of
      the one method the scaler calls. *)

From Stdlib Require Import ZArith String Ascii List Lia.
From Stdlib Require Import DecimalString DecimalZ.
From stdpp Require Import base option strings gmap.

Import ListNotations.
Local Open Scope string_scope.
Local Open Scope Z_scope.

(** ** Go runtime: integers, errors, formatting *)

Module Go.

Definition int_min : Z := - 2 ^ 63.
Definition int_max : Z := 2 ^ 63 - 1.

(** Two's complement wrap-around of a signed 64-bit integer. *)
Definition wrap_int (z : Z) : Z := (z + 2 ^ 63) mod 2 ^ 64 - 2 ^ 63.

(** An [error] value, identified with its message. *)
Record error : Type := errorString { Error : string }.

(** [fmt.Errorf(msg)] for a format without verbs. *)
Definition Errorf (msg : string) : error := errorString msg.

(** [fmt.Errorf(prefix + "%s", err)]: a new error whose text is the prefix
    followed by the text of [err]. *)
Definition Errorf_s (pre : string) (err : error) : error :=
  errorString (pre +:+ Error err).

(** [%d] of an [int]: the decimal digits, with a leading minus sign for
    a negative number. *)
Definition itoa (z : Z) : string := NilEmpty.string_of_int (Z.to_int z).

(** Indexing a [map[string]string]: the zero value for a missing key. *)
Definition index (m : gmap string string) (k : string) : string :=
  default "" (m !! k).

(** *** strconv.ParseInt(s, 10, 64) *)

Inductive NumError : Type := ErrSyntax | ErrRange.

Definition digit (c : ascii) : option Z :=
  let n := Z.of_N (N_of_ascii c) in
  if (48 <=? n) && (n <=? 57) then Some (n - 48) else None.

(** The digit loop of [ParseUint] in base 10: a byte that is not a digit
    is a syntax error, a value above [2^64 - 1] a range error. *)
Fixpoint ParseUint_loop (s : string) (n : Z) : Z * option NumError :=
  match s with
  | EmptyString => (n, None)
  | String c rest =>
      match digit c with
      | None => (0, Some ErrSyntax)
      | Some d =>
          if 2 ^ 64 - 1 <? n * 10 + d then (2 ^ 64 - 1, Some ErrRange)
          else ParseUint_loop rest (n * 10 + d)
      end
  end.

Definition ParseUint (s : string) : Z * option NumError :=
  match s with
  | EmptyString => (0, Some ErrSyntax)
  | _ => ParseUint_loop s 0
  end.

(** Modelled from the spec: [strconv.ParseInt] belongs to the Go standard
    library, not to this repository; the value "must parse as a base-10
    integer" into a "signed 64-bit integer": an optional sign, at least one
    decimal digit, and a result within the int64 range. As in Go, the value
    returned next to an error is 0 or the nearest bound. *)
Definition ParseInt (s : string) : Z * option NumError :=
  match s with
  | EmptyString => (0, Some ErrSyntax)
  | String c rest =>
      let neg := Ascii.eqb c "-" in
      let body := if Ascii.eqb c "+" || neg then rest else s in
      match ParseUint body with
      | (_, Some ErrSyntax) => (0, Some ErrSyntax)
      | (un, _) =>
          if negb neg && (2 ^ 63 <=? un) then (2 ^ 63 - 1, Some ErrRange)
          else if neg && (2 ^ 63 <? un) then (- 2 ^ 63, Some ErrRange)
          else ((if neg then - un else un), None)
      end
  end.

End Go.

Import Go.

(** ** Kubernetes API types used by the scaler *)

(** [corev1.PodPhase] is a string type; these are its declared constants. *)
Definition PodPhase : Type := string.
Definition PodPending : PodPhase := "Pending".
Definition PodRunning : PodPhase := "Running".
Definition PodSucceeded : PodPhase := "Succeeded".
Definition PodFailed : PodPhase := "Failed".
Definition PodUnknown : PodPhase := "Unknown".

Record PodStatus : Type := { Phase : PodPhase }.
Record Pod : Type := { Status : PodStatus }.
Record PodList : Type := { Items : list Pod }.

(** [resource.Quantity] as built by [resource.NewQuantity]. *)
Inductive Format : Type := DecimalExponent | BinarySI | DecimalSI.
Record Quantity : Type := { amount : Z; format : Format }.
Definition NewQuantity (value : Z) (f : Format) : Quantity :=
  {| amount := value; format := f |}.

(** [v2beta2.MetricSpec] with the fields the scaler fills in. *)
Inductive MetricTargetType : Type :=
  UtilizationMetricType | ValueMetricType | AverageValueMetricType.
Record MetricIdentifier : Type := { Name : string }.
Record MetricTarget : Type :=
  { TargetType : MetricTargetType; AverageValue : Quantity }.
Record ExternalMetricSource : Type :=
  { Metric : MetricIdentifier; Target : MetricTarget }.
Record MetricSpec : Type :=
  { External : ExternalMetricSource; Type_ : string }.

(** [metav1.Time]: the wall clock reading, in nanoseconds. *)
Definition Time : Type := Z.

(** [external_metrics.ExternalMetricValue]. *)
Record ExternalMetricValue : Type :=
  { MetricName : string; Value : Quantity; Timestamp : Time }.

(** The [labels] package: the [Selector] interface with its [String]
    method, and the parser [labels.Parse]. *)
Class Labels : Type :=
  { Selector : Type;
    Selector_String : Selector -> string;
    labels_Parse : string -> Selector + error }.

(** ** The scaler *)

Section Scaler.

Context {L : Labels}.

(** [context.Context], opaque to the scaler. *)
Variable context : Type.

(** [client.ListOptions] with the two fields the scaler sets. *)
Record ListOptions : Type :=
  { LabelSelector : Selector; Namespace : string }.

(** [client.Client]: the [List] method, for a list of pods. *)
Record Client : Type :=
  { List : context -> ListOptions -> PodList + error }.

Definition kubernetesWorkloadMetricType : string := "External".
Definition podSelectorKey : string := "podSelector".
Definition valueKey : string := "value".

Definition countIgnoresPhases : list PodPhase :=
  [PodSucceeded; PodFailed; PodUnknown].

Record kubernetesWorkloadMetadata : Type :=
  { podSelector : Selector;
    namespace : string;
    value : Z;
    scalerIndex : Z }.

Record kubernetesWorkloadScaler : Type :=
  { metadata : kubernetesWorkloadMetadata;
    kubeClient : Client }.

(** Modelled from the spec: the [ScalerConfig] struct is declared in another
    file of this package; the parser reads "a mapping of string keys to
    string values (trigger configuration) plus a namespace string" and "an
    externally supplied ordinal". *)
Record ScalerConfig : Type :=
  { config_Namespace : string;
    TriggerMetadata : gmap string string;
    ScalerIndex : Z }.

Definition parseWorkloadMetadata (config : ScalerConfig)
  : option kubernetesWorkloadMetadata * option error :=
  match labels_Parse (index (TriggerMetadata config) podSelectorKey) with
  | inr _ => (None, Some (Errorf "invalid pod selector"))
  | inl sel =>
      if String.eqb (Selector_String sel) ""
      then (None, Some (Errorf "invalid pod selector"))
      else
        match ParseInt (index (TriggerMetadata config) valueKey) with
        | (_, Some _) =>
            (None, Some (Errorf "value must be an integer greater than 0"))
        | (v, None) =>
            if v =? 0
            then (None, Some (Errorf "value must be an integer greater than 0"))
            else (Some {| podSelector := sel;
                          namespace := config_Namespace config;
                          value := v;
                          scalerIndex := ScalerIndex config |}, None)
        end
  end.

Definition NewKubernetesWorkloadScaler (kubeClient : Client)
    (config : ScalerConfig) : option kubernetesWorkloadScaler * option error :=
  match parseWorkloadMetadata config with
  | (_, Some parseErr) =>
      (None,
       Some (Errorf_s "error parsing kubernetes workload metadata: " parseErr))
  | (None, None) => (None, None) (* the parser never returns nil, nil *)
  | (Some meta, None) =>
      (Some {| metadata := meta; kubeClient := kubeClient |}, None)
  end.

(** The body of the loop of [getCountValue] over the ignored phases, with
    its early return. *)
Fixpoint getCountValue_range (ignores : list PodPhase) (pod : Pod) : Z :=
  match ignores with
  | [] => 1
  | ignore :: rest =>
      if String.eqb (Phase (Status pod)) ignore then 0
      else getCountValue_range rest pod
  end.

Definition getCountValue (pod : Pod) : Z :=
  getCountValue_range countIgnoresPhases pod.

Definition getMetricValue (s : kubernetesWorkloadScaler) (ctx : context)
  : Z * option error :=
  let listOptions :=
    {| LabelSelector := podSelector (metadata s);
       Namespace := namespace (metadata s) |} in
  match List (kubeClient s) ctx listOptions with
  | inr err => (0, Some err)
  | inl podList =>
      (fold_left (fun count pod => wrap_int (count + getCountValue pod))
                 (Items podList) 0,
       None)
  end.

(** The listing query [getMetricValue] issues: the namespace and the selector
    of the descriptor. *)
Definition query (s : kubernetesWorkloadScaler) : ListOptions :=
  {| LabelSelector := podSelector (metadata s);
     Namespace := namespace (metadata s) |}.

Definition IsActive (s : kubernetesWorkloadScaler) (ctx : context)
  : bool * option error :=
  match getMetricValue s ctx with
  | (_, Some err) => (false, Some err)
  | (pods, None) => (0 <? pods, None)
  end.

Definition Close (s : kubernetesWorkloadScaler) (ctx : context)
  : option error := None.

(** [metav1.Now()] reads the wall clock: the reading is the argument [now]. *)
Definition GetMetrics (s : kubernetesWorkloadScaler) (ctx : context)
    (metricName : string) (metricSelector : Selector) (now : Time)
  : list ExternalMetricValue * option error :=
  match getMetricValue s ctx with
  | (_, Some err) =>
      ([], Some (Errorf_s "error inspecting kubernetes workload: " err))
  | (pods, None) =>
      let metric :=
        {| MetricName := metricName;
           Value := NewQuantity (wrap_int pods) DecimalSI;
           Timestamp := now |} in
      (app [] [metric], None)
  end.

(** Modelled from the spec: [GenerateMetricNameWithIndex] is declared in
    another file of this package; the "metric identifier format" is
    "{scalerIndex}-workload-{normalizedNamespace}": the ordinal in decimal,
    a hyphen, and the name it is given. *)
Definition GenerateMetricNameWithIndex (scalerIndex : Z) (metricName : string)
  : string :=
  itoa scalerIndex +:+ "-" +:+ metricName.

(** The characters that are illegal in a metric identifier; the spec does not
    list them. *)
Variable illegal : ascii -> bool.

(** Modelled from the spec: [kedautil.NormalizeString] is declared in the
    [pkg/util] package of this repository; "normalization strips characters
    illegal in a metric identifier". *)
Fixpoint NormalizeString (s : string) : string :=
  match s with
  | EmptyString => EmptyString
  | String c rest =>
      if illegal c then NormalizeString rest
      else String c (NormalizeString rest)
  end.

Definition GetMetricSpecForScaling (s : kubernetesWorkloadScaler)
    (ctx : context) : list MetricSpec :=
  let targetMetricValue := NewQuantity (value (metadata s)) DecimalSI in
  let externalMetric :=
    {| Metric :=
         {| Name :=
              GenerateMetricNameWithIndex (scalerIndex (metadata s))
                (NormalizeString ("workload-" +:+ namespace (metadata s))) |};
       Target :=
         {| TargetType := AverageValueMetricType;
            AverageValue := targetMetricValue |} |} in
  let metricSpec :=
    {| External := externalMetric; Type_ := kubernetesWorkloadMetricType |} in
  [metricSpec].

(** The metric names of a list of metric specs. *)
Definition metricNames (specs : list MetricSpec) : list string :=
  map (fun spec => Name (Metric (External spec))) specs.

(** What [labels.Parse] does with the empty string in apimachinery: it
    returns the selector without requirements, whose [String()] is empty. *)
Definition Parse_empty_is_everything : Prop :=
  forall sel : Selector, labels_Parse "" = inl sel -> Selector_String sel = "".

(** Two descriptors that differ in [scalerIndex] and in nothing else. *)
Definition differ_only_in_scalerIndex (m1 m2 : kubernetesWorkloadMetadata)
  : Prop :=
  podSelector m1 = podSelector m2 /\ namespace m1 = namespace m2
  /\ value m1 = value m2 /\ scalerIndex m1 <> scalerIndex m2.

End Scaler.

Arguments List {L context} _ _ _.
Arguments kubeClient {L context} _.
Arguments metadata {L context} _.
Arguments parseWorkloadMetadata {L} _.
Arguments NewKubernetesWorkloadScaler {L context} _ _.
Arguments getMetricValue {L context} _ _.
Arguments IsActive {L context} _ _.
Arguments Close {L context} _ _.
Arguments GetMetrics {L context} _ _ _ _ _.
Arguments GetMetricSpecForScaling {L context} _ _ _.
Arguments query {L context} _.

(** ** The spec's reading of the pod counter *)

(** The phases the spec excludes from the count. *)
Definition terminalPhases : list PodPhase := ["Succeeded"; "Failed"; "Unknown"].

(** "If phase ∈ {Succeeded, Failed, Unknown}, contributes 0; otherwise
    contributes 1." *)
Definition contribution (phase : PodPhase) : Z :=
  if bool_decide (phase ∈ terminalPhases) then 0 else 1.

(** "The number of observations whose phase is not in {Succeeded, Failed,
    Unknown}." *)
Definition CountActive (pods : list Pod) : Z :=
  Z.of_nat
    (length (filter (fun pod => Phase (Status pod) ∉ terminalPhases) pods)).

(** ** Collaborators used to run the scaler on concrete inputs *)

(** A parser for the equality fragment of the label-selector grammar:
    comma-separated [key=value] requirements with a non-empty key. The empty
    string is the selector without requirements, which prints as the empty
    string. *)
Module EqualitySelector.

Definition Requirement : Type := (string * string)%type.

Fixpoint split_on (sep : ascii) (s : string) : list string :=
  match s with
  | EmptyString => [EmptyString]
  | String c rest =>
      if Ascii.eqb c sep then EmptyString :: split_on sep rest
      else match split_on sep rest with
           | [] => [String c EmptyString]
           | h :: t => String c h :: t
           end
  end.

Fixpoint cut (sep : ascii) (s : string) : option (string * string) :=
  match s with
  | EmptyString => None
  | String c rest =>
      if Ascii.eqb c sep then Some (EmptyString, rest)
      else match cut sep rest with
           | Some (k, v) => Some (String c k, v)
           | None => None
           end
  end.

Definition parse_requirement (s : string) : option Requirement :=
  match cut "=" s with
  | Some (k, v) => if String.eqb k "" then None else Some (k, v)
  | None => None
  end.

Fixpoint parse_requirements (l : list string) : option (list Requirement) :=
  match l with
  | [] => Some []
  | s :: rest =>
      match parse_requirement s, parse_requirements rest with
      | Some r, Some rs => Some (r :: rs)
      | _, _ => None
      end
  end.

Definition Parse (s : string) : list Requirement + error :=
  if String.eqb s "" then inl []
  else match parse_requirements (split_on "," s) with
       | Some rs => inl rs
       | None => inr (Errorf "couldn't parse the selector string")
       end.

Definition print (sel : list Requirement) : string :=
  String.concat "," (map (fun r => fst r +:+ "=" +:+ snd r) sel).

#[export] Instance labels : Labels :=
  {| Selector := list Requirement;
     Selector_String := print;
     labels_Parse := Parse |}.

(** A cluster that answers every listing query with [answer]. *)
Definition cluster (answer : PodList + error) : Client unit :=
  {| List := fun _ _ => answer |}.

Definition pod (phase : PodPhase) : Pod := {| Status := {| Phase := phase |} |}.

Definition descriptor (ns : string) (idx : Z) : kubernetesWorkloadMetadata :=
  {| podSelector := [("app", "web")];
     namespace := ns;
     value := 5;
     scalerIndex := idx |}.

Definition scaler_at (idx : Z) (answer : PodList + error)
  : kubernetesWorkloadScaler unit :=
  {| metadata := descriptor "default" idx; kubeClient := cluster answer |}.

Definition scaler : PodList + error -> kubernetesWorkloadScaler unit :=
  scaler_at 0.

Definition five_pods : PodList :=
  {| Items := map pod ["Running"; "Pending"; "Succeeded"; "Failed"; "Unknown"] |}.

Definition refused : error := Errorf "connection refused".

Definition config (selector target : string) : ScalerConfig :=
  {| config_Namespace := "default";
     TriggerMetadata := {[ "podSelector" := selector; "value" := target ]};
     ScalerIndex := 0 |}.

Definition config_without_selector : ScalerConfig :=
  {| config_Namespace := "default";
     TriggerMetadata := {[ "value" := "5" ]};
     ScalerIndex := 0 |}.

Definition five_pods_reversed : PodList :=
  {| Items := rev (Items five_pods) |}.

Definition finished_pods : PodList :=
  {| Items := map pod ["Succeeded"; "Failed"; "Unknown"; "Failed"] |}.

Definition config_without_value : ScalerConfig :=
  {| config_Namespace := "default";
     TriggerMetadata := {[ "podSelector" := "app=web" ]};
     ScalerIndex := 0 |}.

(** The characters replaced by KEDA's own normalization, taken here as the
    illegal ones. *)
Definition illegal (c : ascii) : bool :=
  bool_decide (c ∈ ["/"; "."; ":"; "%"]%char).

End EqualitySelector.

(** ** Properties *)

Section Properties.

Context {L : Labels} {context : Type}.

Implicit Types (s : kubernetesWorkloadScaler context) (ctx : context).

Lemma wrap_int_id z : int_min <= z <= int_max -> wrap_int z = z.
Proof.
  unfold int_min, int_max, wrap_int. intros Hz.
  rewrite Z.mod_small by lia. lia.
Qed.

Lemma getCountValue_contribution (pod : Pod) :
  getCountValue pod = contribution (Phase (Status pod)).
Proof.
  unfold getCountValue, contribution, countIgnoresPhases, terminalPhases.
  unfold PodSucceeded, PodFailed, PodUnknown. cbn [getCountValue_range].
  destruct (String.eqb_spec (Phase (Status pod)) "Succeeded") as [->|H1].
  { rewrite bool_decide_eq_true_2; [done | set_solver]. }
  destruct (String.eqb_spec (Phase (Status pod)) "Failed") as [->|H2].
  { rewrite bool_decide_eq_true_2; [done | set_solver]. }
  destruct (String.eqb_spec (Phase (Status pod)) "Unknown") as [->|H3].
  { rewrite bool_decide_eq_true_2; [done | set_solver]. }
  rewrite bool_decide_eq_false_2; [done |].
  rewrite !elem_of_cons, elem_of_nil. tauto.
Qed.

Lemma CountActive_cons (pod : Pod) (pods : list Pod) :
  CountActive (pod :: pods) = contribution (Phase (Status pod)) + CountActive pods.
Proof.
  unfold CountActive, contribution. rewrite filter_cons.
  destruct (decide (Phase (Status pod) ∉ terminalPhases)) as [Hn|Hn].
  - rewrite bool_decide_eq_false_2 by done. cbn [length]. lia.
  - rewrite bool_decide_eq_true_2; [lia|].
    destruct (decide (Phase (Status pod) ∈ terminalPhases)); tauto.
Qed.

Lemma CountActive_bounds (pods : list Pod) :
  0 <= CountActive pods <= Z.of_nat (length pods).
Proof.
  unfold CountActive. split; [lia|].
  apply inj_le, length_filter.
Qed.

Lemma count_loop (pods : list Pod) (count : Z) :
  0 <= count -> count + Z.of_nat (length pods) <= int_max ->
  fold_left (fun count pod => wrap_int (count + getCountValue pod)) pods count
  = count + CountActive pods.
Proof.
  revert count. induction pods as [|pod pods IH]; intros count H0 Hmax.
  - unfold CountActive. cbn. lia.
  - cbn [fold_left]. rewrite getCountValue_contribution, CountActive_cons.
    cbn [length] in Hmax.
    assert (0 <= contribution (Phase (Status pod)) <= 1) as Hc
      by (unfold contribution; case_bool_decide; lia).
    rewrite wrap_int_id by (unfold int_min; lia).
    rewrite IH by lia. lia.
Qed.

(** C1. When the listing query succeeds, [getMetricValue] returns the number
    of listed pods whose phase is not Succeeded, Failed or Unknown, and no
    error; a pod in one of these phases contributes 0 and a pod in any other
    phase, the empty one included, contributes 1. The bound on the length is
    the one every Go slice satisfies. *)
Theorem getMetricValue_counts_active s ctx (podList : PodList) :
  List (kubeClient s) ctx (query s) = inl podList ->
  Z.of_nat (length (Items podList)) <= int_max ->
  getMetricValue s ctx = (CountActive (Items podList), None)
  /\ (forall pod : Pod,
        getCountValue pod
        = if bool_decide (Phase (Status pod) ∈ terminalPhases) then 0 else 1).
Proof.
  intros Hlist Hlen. split.
  - unfold getMetricValue. fold (query s). rewrite Hlist.
    rewrite count_loop by lia. done.
  - intros pod. apply getCountValue_contribution.
Qed.


(** *** Failures of the listing query *)

Lemma getMetricValue_failure s ctx (e : error) :
  List (kubeClient s) ctx (query s) = inr e ->
  getMetricValue s ctx = (0, Some e).
Proof. intros Hlist. unfold getMetricValue. fold (query s). by rewrite Hlist. Qed.

Lemma getMetricValue_success s ctx (podList : PodList) :
  List (kubeClient s) ctx (query s) = inl podList ->
  snd (getMetricValue s ctx) = None.
Proof. intros Hlist. unfold getMetricValue. fold (query s). by rewrite Hlist. Qed.

Lemma length_append (a b : string) :
  String.length (a +:+ b) = (String.length a + String.length b)%nat.
Proof. induction a as [|c a IH]; simpl; [done | by f_equal]. Qed.

Lemma append_inv_tail (a b r : string) : a +:+ r = b +:+ r -> a = b.
Proof.
  revert b. induction a as [|c a IH]; intros [|d b] Heq; simpl in Heq.
  - done.
  - apply (f_equal String.length) in Heq. simpl in Heq.
    rewrite ?length_append in Heq. simpl in Heq. lia.
  - apply (f_equal String.length) in Heq. simpl in Heq.
    rewrite ?length_append in Heq. simpl in Heq. lia.
  - injection Heq as -> Heq. f_equal. by apply IH.
Qed.

Lemma Errorf_s_fresh (pre : string) (e : error) :
  pre <> "" -> Errorf_s pre e <> e.
Proof.
  intros Hpre Heq. destruct e as [msg]. unfold Errorf_s in Heq. cbn in Heq.
  injection Heq as Heq. apply (f_equal String.length) in Heq.
  rewrite length_append in Heq. destruct pre; [done | simpl in Heq; lia].
Qed.

(** C3, as amended. When the listing query fails with [e], [IsActive] hands
    [e] back as it is, and [GetMetrics] returns a new error whose text is
    "error inspecting kubernetes workload: " followed by the text of [e]. *)
Theorem query_failure_propagates s ctx (e : error) (metricName : string)
    (metricSelector : Selector) (now : Time) :
  List (kubeClient s) ctx (query s) = inr e ->
  snd (IsActive s ctx) = Some e
  /\ snd (GetMetrics s ctx metricName metricSelector now)
     = Some (errorString ("error inspecting kubernetes workload: " +:+ Error e)).
Proof.
  intros Hlist. unfold IsActive, GetMetrics.
  by rewrite (getMetricValue_failure _ _ _ Hlist).
Qed.

(** The error [GetMetrics] returns is never the error of the query itself. *)
Lemma GetMetrics_failure_differs s ctx (e : error) (metricName : string)
    (metricSelector : Selector) (now : Time) :
  List (kubeClient s) ctx (query s) = inr e ->
  snd (GetMetrics s ctx metricName metricSelector now) <> Some e.
Proof.
  intros Hlist. unfold GetMetrics.
  rewrite (getMetricValue_failure _ _ _ Hlist). cbn. intros Heq.
  injection Heq as Heq. by apply Errorf_s_fresh in Heq.
Qed.

(** C4. [IsActive] answers true exactly when the count [getMetricValue]
    returns is strictly positive. *)
Theorem IsActive_iff_count_positive s ctx :
  fst (IsActive s ctx) = true <-> 0 < fst (getMetricValue s ctx).
Proof.
  unfold IsActive. destruct (getMetricValue s ctx) as [pods [err|]] eqn:Hget.
  - cbn. split; [done|]. intros Hpos.
    unfold getMetricValue in Hget.
    destruct (List _ _ _); [discriminate | injection Hget as <- _; lia].
  - cbn. apply Z.ltb_lt.
Qed.

(** C9. When the listing query fails, [IsActive] returns false together with
    the error of the query; in no case does it return true together with an
    error. *)
Theorem IsActive_false_on_failure s ctx :
  (forall e : error,
     List (kubeClient s) ctx (query s) = inr e ->
     IsActive s ctx = (false, Some e))
  /\ (fst (IsActive s ctx) = false \/ snd (IsActive s ctx) = None).
Proof.
  split.
  - intros e Hlist. unfold IsActive.
    by rewrite (getMetricValue_failure _ _ _ Hlist).
  - unfold IsActive. destruct (getMetricValue s ctx) as [pods [err|]]; auto.
Qed.

(** C10. [GetMetrics] returns exactly one sample when the listing query
    succeeds and an empty list of samples when it fails. *)
Theorem GetMetrics_sample_count s ctx (metricName : string)
    (metricSelector : Selector) (now : Time) :
  (forall podList : PodList,
     List (kubeClient s) ctx (query s) = inl podList ->
     length (fst (GetMetrics s ctx metricName metricSelector now)) = 1%nat)
  /\ (forall e : error,
        List (kubeClient s) ctx (query s) = inr e ->
        fst (GetMetrics s ctx metricName metricSelector now) = []).
Proof.
  split.
  - intros podList Hlist. unfold GetMetrics.
    pose proof (getMetricValue_success _ _ _ Hlist) as Hnone.
    destruct (getMetricValue s ctx) as [pods err]. cbn in Hnone. by subst err.
  - intros e Hlist. unfold GetMetrics.
    by rewrite (getMetricValue_failure _ _ _ Hlist).
Qed.

(** C6. The result of [GetMetrics] is the same whatever selector is passed;
    whenever the listing query succeeds, the result holds one sample and its
    name is the metric name [GetMetrics] was called with, for any selector;
    and in every case the names of the returned samples are that name, once,
    when no error is returned, and none otherwise. *)
Theorem GetMetrics_ignores_selector s ctx (metricName : string)
    (sel1 sel2 : Selector) (now : Time) :
  GetMetrics s ctx metricName sel1 now = GetMetrics s ctx metricName sel2 now
  /\ (forall (podList : PodList) (metricSelector : Selector),
        List (kubeClient s) ctx (query s) = inl podList ->
        map MetricName (fst (GetMetrics s ctx metricName metricSelector now))
        = [metricName]
        /\ snd (GetMetrics s ctx metricName metricSelector now) = None)
  /\ map MetricName (fst (GetMetrics s ctx metricName sel1 now))
     = match snd (GetMetrics s ctx metricName sel1 now) with
       | None => [metricName]
       | Some _ => []
       end.
Proof.
  split; [done|]. split.
  - intros podList metricSelector Hlist. unfold GetMetrics.
    pose proof (getMetricValue_success _ _ _ Hlist) as Hnone.
    destruct (getMetricValue s ctx) as [pods err]. cbn in Hnone. by subst err.
  - unfold GetMetrics.
    by destruct (getMetricValue s ctx) as [pods [err|]].
Qed.

(** *** The metric spec *)

Lemma itoa_inj (a b : Z) : itoa a = itoa b -> a = b.
Proof.
  unfold itoa. intros Heq. apply to_int_inj.
  apply (f_equal NilEmpty.int_of_string) in Heq.
  rewrite !NilEmpty.isi in Heq. by injection Heq.
Qed.

Lemma GenerateMetricNameWithIndex_inj (i j : Z) (metricName : string) :
  GenerateMetricNameWithIndex i metricName
  = GenerateMetricNameWithIndex j metricName ->
  i = j.
Proof.
  unfold GenerateMetricNameWithIndex. intros Heq.
  by apply append_inv_tail, itoa_inj in Heq.
Qed.

Section Normalization.

Variable illegal : ascii -> bool.

Lemma NormalizeString_legal_prefix (pre s : string) :
  (forall c : ascii, In c (list_ascii_of_string pre) -> illegal c = false) ->
  NormalizeString illegal (pre +:+ s) = pre +:+ NormalizeString illegal s.
Proof.
  induction pre as [|c pre IH]; intros Hlegal; simpl; [done|].
  rewrite (Hlegal c) by (simpl; auto).
  change (String c pre +:+ NormalizeString illegal s)
    with (String c (pre +:+ NormalizeString illegal s)).
  f_equal. apply IH. intros c' Hin. apply Hlegal. simpl. auto.
Qed.

(** C5. Provided no character of the literal "workload-" is illegal in a
    metric identifier, the metric spec carries one name: the scaler index in
    decimal, then "-workload-", then the namespace without its illegal
    characters. *)
Theorem metric_name_format s ctx :
  (forall c : ascii,
     In c (list_ascii_of_string "workload-") -> illegal c = false) ->
  metricNames (GetMetricSpecForScaling illegal s ctx)
  = [itoa (scalerIndex (metadata s)) +:+ "-workload-"
     +:+ NormalizeString illegal (namespace (metadata s))].
Proof.
  intros Hlegal. unfold GetMetricSpecForScaling, metricNames. cbn [map].
  cbn [External Metric Name]. unfold GenerateMetricNameWithIndex.
  by rewrite (NormalizeString_legal_prefix _ _ Hlegal).
Qed.

(** C7. The metric spec is a function of the descriptor alone: scalers with
    the same descriptor yield the same spec whatever cluster and context
    they are called with; and two descriptors that differ in the scaler index
    only yield different metric names. *)
Theorem GetMetricSpecForScaling_deterministic
    (s s_again s_other : kubernetesWorkloadScaler context)
    (ctx ctx_again ctx_other : context) :
  metadata s_again = metadata s ->
  differ_only_in_scalerIndex (metadata s) (metadata s_other) ->
  GetMetricSpecForScaling illegal s_again ctx_again
  = GetMetricSpecForScaling illegal s ctx
  /\ metricNames (GetMetricSpecForScaling illegal s ctx)
     <> metricNames (GetMetricSpecForScaling illegal s_other ctx_other).
Proof.
  intros Hsame (_ & Hns & _ & Hidx). split.
  - unfold GetMetricSpecForScaling. by rewrite Hsame.
  - unfold GetMetricSpecForScaling, metricNames. cbn [map External Metric Name].
    rewrite Hns. intros Heq. injection Heq as Heq.
    by apply GenerateMetricNameWithIndex_inj in Heq.
Qed.

End Normalization.

(** *** The metadata parser *)

Lemma NewKubernetesWorkloadScaler_failure (client : Client context)
    (config : ScalerConfig) (e : error) :
  parseWorkloadMetadata config = (None, Some e) ->
  NewKubernetesWorkloadScaler client config
  = (None, Some (Errorf_s "error parsing kubernetes workload metadata: " e)).
Proof. intros Hparse. unfold NewKubernetesWorkloadScaler. by rewrite Hparse. Qed.

Lemma index_missing (m : gmap string string) (k : string) :
  m !! k = None -> index m k = "".
Proof. intros Hk. unfold index. by rewrite Hk. Qed.

Lemma parse_failure_rejected (config : ScalerConfig) (e : error) :
  labels_Parse (index (TriggerMetadata config) podSelectorKey) = inr e ->
  parseWorkloadMetadata config = (None, Some (Errorf "invalid pod selector")).
Proof. intros Hparse. unfold parseWorkloadMetadata. by rewrite Hparse. Qed.

Lemma empty_selector_rejected (config : ScalerConfig) (sel : Selector) :
  labels_Parse (index (TriggerMetadata config) podSelectorKey) = inl sel ->
  Selector_String sel = "" ->
  parseWorkloadMetadata config = (None, Some (Errorf "invalid pod selector")).
Proof.
  intros Hparse Hempty. unfold parseWorkloadMetadata. by rewrite Hparse, Hempty.
Qed.

(** C8. A configuration whose selector is missing, does not parse, or parses
    to the selector that prints as the empty string is rejected: the parser
    returns no descriptor and the error "invalid pod selector", and the
    constructor returns no scaler and that error wrapped. For the missing
    key the code relies on what [labels.Parse] does with the empty string. *)
Theorem parseWorkloadMetadata_rejects_selector (client : Client context)
    (config : ScalerConfig) :
  (TriggerMetadata config !! podSelectorKey = None
   /\ Parse_empty_is_everything)
  \/ (exists e : error,
        labels_Parse (index (TriggerMetadata config) podSelectorKey) = inr e)
  \/ (exists sel : Selector,
        labels_Parse (index (TriggerMetadata config) podSelectorKey) = inl sel
        /\ Selector_String sel = "") ->
  parseWorkloadMetadata config = (None, Some (Errorf "invalid pod selector"))
  /\ NewKubernetesWorkloadScaler client config
     = (None,
        Some (Errorf "error parsing kubernetes workload metadata: invalid pod selector")).
Proof.
  intros Hbad.
  assert (parseWorkloadMetadata config
          = (None, Some (Errorf "invalid pod selector"))) as Hparse.
  { destruct Hbad as [[Hmissing Hempty] | [[e He] | (sel & Hsel & Hstr)]].
    - destruct (labels_Parse (index (TriggerMetadata config) podSelectorKey))
        as [sel|e] eqn:Hsel.
      + apply (empty_selector_rejected _ sel Hsel).
        apply Hempty. by rewrite <- (index_missing _ _ Hmissing).
      + by apply (parse_failure_rejected _ e).
    - by apply (parse_failure_rejected _ e).
    - by apply (empty_selector_rejected _ sel). }
  split; [done|].
  by rewrite (NewKubernetesWorkloadScaler_failure _ _ _ Hparse).
Qed.

(** C2, what the code does. A [value] that parses to a negative integer is
    accepted: the parser returns a descriptor carrying that negative target
    and no error, although its own error message asks for "an integer
    greater than 0". *)
Theorem parseWorkloadMetadata_accepts_negative (config : ScalerConfig)
    (sel : Selector) (v : Z) :
  labels_Parse (index (TriggerMetadata config) podSelectorKey) = inl sel ->
  Selector_String sel <> "" ->
  ParseInt (index (TriggerMetadata config) valueKey) = (v, None) ->
  v < 0 ->
  parseWorkloadMetadata config
  = (Some {| podSelector := sel;
             namespace := config_Namespace config;
             value := v;
             scalerIndex := ScalerIndex config |}, None).
Proof.
  intros Hsel Hstr Hint Hneg. unfold parseWorkloadMetadata.
  rewrite Hsel, Hint.
  destruct (String.eqb_spec (Selector_String sel) "") as [|_]; [done|].
  destruct (Z.eqb_spec v 0); [lia | done].
Qed.

(** The part of C2 the code does enforce: a [value] that is not a base-10
    int64, or that is zero, is rejected. *)
Lemma parseWorkloadMetadata_rejects_value (config : ScalerConfig) :
  snd (ParseInt (index (TriggerMetadata config) valueKey)) <> None
  \/ fst (ParseInt (index (TriggerMetadata config) valueKey)) = 0 ->
  fst (parseWorkloadMetadata config) = None
  /\ snd (parseWorkloadMetadata config) <> None.
Proof.
  intros Hbad. unfold parseWorkloadMetadata.
  destruct (labels_Parse _) as [sel|e]; [|done].
  destruct (String.eqb _ _); [done|].
  destruct (ParseInt _) as [v [e|]]; [done|]. cbn in Hbad.
  destruct Hbad as [Herr|Hzero]; [done | by rewrite Hzero].
Qed.

End Properties.

(** ** The scaler on concrete inputs *)

Import EqualitySelector.

(** Phases [Running, Pending, Succeeded, Failed, Unknown] count 2, and a pod
    with the empty phase counts. *)
Lemma getMetricValue_counts_active_example :
  getMetricValue (scaler (inl five_pods)) tt = (2, None)
  /\ getCountValue (pod "") = 1.
Proof.
  pose proof (getMetricValue_counts_active (scaler (inl five_pods)) tt
                five_pods eq_refl ltac:(vm_compute; discriminate))
    as [Hcount Hpod].
  split; [exact Hcount | exact (Hpod (pod ""))].
Defined.

(** C3, as stated, fails: the query fails with "connection refused" and
    [GetMetrics] returns another error, with a longer text. *)
Lemma GetMetrics_alters_failure :
  List (kubeClient (scaler (inr refused))) tt (query (scaler (inr refused)))
  = inr refused
  /\ snd (GetMetrics (scaler (inr refused)) tt "0-workload-default" [] 0)
     = Some (errorString "error inspecting kubernetes workload: connection refused")
  /\ snd (GetMetrics (scaler (inr refused)) tt "0-workload-default" [] 0)
     <> Some refused.
Proof. repeat split. discriminate. Qed.

Lemma query_failure_propagates_example :
  snd (IsActive (scaler (inr refused)) tt) = Some refused
  /\ snd (GetMetrics (scaler (inr refused)) tt "0-workload-default" [] 0)
     = Some (errorString "error inspecting kubernetes workload: connection refused").
Proof.
  exact (query_failure_propagates (scaler (inr refused)) tt refused
           "0-workload-default" [] 0 eq_refl).
Defined.

Lemma IsActive_false_on_failure_example :
  IsActive (scaler (inr refused)) tt = (false, Some refused).
Proof.
  exact (proj1 (IsActive_false_on_failure (scaler (inr refused)) tt)
           refused eq_refl).
Defined.

Lemma GetMetrics_sample_count_example :
  length (fst (GetMetrics (scaler (inl five_pods)) tt "m" [] 0)) = 1%nat
  /\ fst (GetMetrics (scaler (inr refused)) tt "m" [] 0) = [].
Proof.
  split.
  - exact (proj1 (GetMetrics_sample_count (scaler (inl five_pods)) tt "m" [] 0)
             five_pods eq_refl).
  - exact (proj2 (GetMetrics_sample_count (scaler (inr refused)) tt "m" [] 0)
             refused eq_refl).
Defined.

(** On a listing of five pods the sample carries the requested name, not the
    name the metric spec generates, whichever selector comes with it. *)
Lemma GetMetrics_ignores_selector_example :
  GetMetrics (scaler (inl five_pods)) tt "requested" [] 7
  = GetMetrics (scaler (inl five_pods)) tt "requested" [("tier", "db")] 7
  /\ map MetricName
       (fst (GetMetrics (scaler (inl five_pods)) tt "requested"
               [("tier", "db")] 7))
     = ["requested"]
  /\ snd (GetMetrics (scaler (inl five_pods)) tt "requested" [("tier", "db")] 7)
     = None.
Proof.
  pose proof (GetMetrics_ignores_selector (scaler (inl five_pods)) tt
                "requested" [] [("tier", "db")] 7) as (Hsame & Hname & _).
  split; [exact Hsame|].
  exact (Hname five_pods [("tier", "db")] eq_refl).
Defined.

Lemma metric_name_format_example :
  metricNames
    (GetMetricSpecForScaling illegal
       {| metadata := descriptor "team.a/b" 3;
          kubeClient := cluster (inr refused) |} tt)
  = ["3-workload-teamab"].
Proof.
  refine (metric_name_format illegal
            {| metadata := descriptor "team.a/b" 3;
               kubeClient := cluster (inr refused) |} tt _).
  intros c Hin. simpl in Hin.
  repeat (destruct Hin as [<-|Hin]; [reflexivity|]). contradiction.
Defined.

Lemma GetMetricSpecForScaling_deterministic_example :
  GetMetricSpecForScaling illegal (scaler_at 0 (inl five_pods)) tt
  = GetMetricSpecForScaling illegal (scaler_at 0 (inr refused)) tt
  /\ metricNames (GetMetricSpecForScaling illegal (scaler_at 0 (inr refused)) tt)
     <> metricNames (GetMetricSpecForScaling illegal (scaler_at 1 (inr refused)) tt).
Proof.
  refine (GetMetricSpecForScaling_deterministic illegal
            (scaler_at 0 (inr refused)) (scaler_at 0 (inl five_pods))
            (scaler_at 1 (inr refused)) tt tt tt eq_refl _).
  repeat split. discriminate.
Defined.

Lemma Parse_empty : Parse_empty_is_everything.
Proof. intros sel Hsel. injection Hsel as <-. reflexivity. Defined.

Lemma parseWorkloadMetadata_rejects_selector_example :
  parseWorkloadMetadata config_without_selector
  = (None, Some (Errorf "invalid pod selector"))
  /\ NewKubernetesWorkloadScaler (cluster (inl five_pods)) config_without_selector
     = (None,
        Some (Errorf "error parsing kubernetes workload metadata: invalid pod selector")).
Proof.
  refine (parseWorkloadMetadata_rejects_selector (cluster (inl five_pods))
            config_without_selector (or_introl (conj _ Parse_empty))).
  reflexivity.
Defined.

(** The input on which C2 fails: [{podSelector: "app=web", value: "-5"}]
    yields a descriptor with target -5. *)
Lemma parseWorkloadMetadata_accepts_negative_example :
  parseWorkloadMetadata (config "app=web" "-5")
  = (Some {| podSelector := [("app", "web")];
             namespace := "default";
             value := -5;
             scalerIndex := 0 |}, None).
Proof.
  refine (parseWorkloadMetadata_accepts_negative (config "app=web" "-5")
            [("app", "web")] (-5) eq_refl _ eq_refl _).
  - discriminate.
  - reflexivity.
Defined.

(** ** Further properties of the scaler *)

Section Counting.

Context {L : Labels} {context : Type}.

Implicit Types (s : kubernetesWorkloadScaler context) (ctx : context).

Lemma wrap_int_range z : int_min <= wrap_int z <= int_max.
Proof.
  unfold int_min, int_max, wrap_int.
  pose proof (Z.mod_pos_bound (z + 2 ^ 63) (2 ^ 64) ltac:(lia)). lia.
Qed.

Lemma wrap_int_add_l a b : wrap_int (wrap_int a + b) = wrap_int (a + b).
Proof.
  unfold wrap_int. f_equal.
  replace ((a + 2 ^ 63) mod 2 ^ 64 - 2 ^ 63 + b + 2 ^ 63)
    with ((a + 2 ^ 63) mod 2 ^ 64 + b) by lia.
  rewrite Z.add_mod_idemp_l by lia. f_equal. lia.
Qed.

Lemma count_loop_wrap (pods : list Pod) (count : Z) :
  fold_left (fun count pod => wrap_int (count + getCountValue pod)) pods
            (wrap_int count)
  = wrap_int (count + CountActive pods).
Proof.
  revert count. induction pods as [|pod pods IH]; intros count.
  - unfold CountActive. cbn. f_equal. lia.
  - cbn [fold_left]. rewrite wrap_int_add_l, IH.
    rewrite getCountValue_contribution, CountActive_cons. f_equal. lia.
Qed.

Lemma getMetricValue_outcome s ctx :
  getMetricValue s ctx
  = match List (kubeClient s) ctx (query s) with
    | inl podList => (wrap_int (CountActive (Items podList)), None)
    | inr e => (0, Some e)
    end.
Proof.
  unfold getMetricValue. fold (query s).
  destruct (List (kubeClient s) ctx (query s)) as [podList|e]; [|done].
  f_equal. change 0 with (wrap_int 0) at 1. by rewrite count_loop_wrap.
Qed.

Lemma getMetricValue_in_range s ctx :
  int_min <= fst (getMetricValue s ctx) <= int_max.
Proof.
  rewrite getMetricValue_outcome. destruct (List _ _ _); cbn.
  - apply wrap_int_range.
  - unfold int_min, int_max. lia.
Qed.

Lemma CountActive_zero (pods : list Pod) :
  CountActive pods = 0
  <-> forall pod : Pod, pod ∈ pods -> Phase (Status pod) ∈ terminalPhases.
Proof.
  induction pods as [|pod pods IH].
  - split; [|done]. intros _ pod Hin. by apply elem_of_nil in Hin.
  - rewrite CountActive_cons. pose proof (CountActive_bounds pods) as Hb.
    unfold contribution. case_bool_decide as Hterm; split.
    + intros Hz pod' Hin. apply elem_of_cons in Hin as [->|Hin]; [done|].
      apply IH; [lia | done].
    + intros Hall. rewrite (proj2 IH); [done|].
      intros pod' Hin. apply Hall. by apply elem_of_cons; right.
    + lia.
    + intros Hall. exfalso. apply Hterm, Hall. by apply elem_of_cons; left.
Qed.

(** X1. The count does not depend on the order in which the cluster lists
    the pods: two listings that are permutations of each other give the same
    result, whatever their length. *)
Theorem getMetricValue_permutation s1 s2 ctx1 ctx2 (l1 l2 : PodList) :
  List (kubeClient s1) ctx1 (query s1) = inl l1 ->
  List (kubeClient s2) ctx2 (query s2) = inl l2 ->
  Items l1 ≡ₚ Items l2 ->
  getMetricValue s1 ctx1 = getMetricValue s2 ctx2.
Proof.
  intros H1 H2 Hperm. rewrite !getMetricValue_outcome, H1, H2.
  unfold CountActive. by rewrite Hperm.
Qed.

(** X2. When the listing succeeds, the count is never negative and never
    exceeds the number of listed pods: the 64-bit counter does not wrap. *)
Theorem getMetricValue_bounded s ctx (podList : PodList) :
  List (kubeClient s) ctx (query s) = inl podList ->
  Z.of_nat (length (Items podList)) <= int_max ->
  0 <= fst (getMetricValue s ctx) <= Z.of_nat (length (Items podList)).
Proof.
  intros Hlist Hlen. rewrite getMetricValue_outcome, Hlist. cbn [fst].
  pose proof (CountActive_bounds (Items podList)) as Hb.
  rewrite wrap_int_id by (unfold int_min; lia). done.
Qed.

(** X3. When every listed pod is Succeeded, Failed or Unknown, in particular
    when no pod is listed, the count is 0, [IsActive] answers false without
    an error, and [GetMetrics] still returns one sample, of value 0. *)
Theorem all_terminal_inactive s ctx (podList : PodList) (metricName : string)
    (metricSelector : Selector) (now : Time) :
  List (kubeClient s) ctx (query s) = inl podList ->
  (forall pod : Pod,
     pod ∈ Items podList -> Phase (Status pod) ∈ terminalPhases) ->
  getMetricValue s ctx = (0, None)
  /\ IsActive s ctx = (false, None)
  /\ GetMetrics s ctx metricName metricSelector now
     = ([{| MetricName := metricName;
            Value := {| amount := 0; format := DecimalSI |};
            Timestamp := now |}], None).
Proof.
  intros Hlist Hall.
  assert (getMetricValue s ctx = (0, None)) as Hget.
  { rewrite getMetricValue_outcome, Hlist.
    by rewrite (proj2 (CountActive_zero _) Hall). }
  unfold IsActive, GetMetrics. by rewrite Hget.
Qed.

(** X4. When the listing succeeds, [IsActive] answers true exactly when some
    listed pod is in a phase other than Succeeded, Failed and Unknown. *)
Theorem IsActive_iff_active_pod s ctx (podList : PodList) :
  List (kubeClient s) ctx (query s) = inl podList ->
  Z.of_nat (length (Items podList)) <= int_max ->
  IsActive s ctx = (true, None)
  <-> exists pod : Pod,
        pod ∈ Items podList /\ Phase (Status pod) ∉ terminalPhases.
Proof.
  intros Hlist Hlen. unfold IsActive.
  rewrite getMetricValue_outcome, Hlist.
  pose proof (CountActive_bounds (Items podList)) as Hb.
  rewrite wrap_int_id by (unfold int_min; lia).
  destruct (Z.ltb_spec 0 (CountActive (Items podList))) as [Hpos|Hzero].
  - split; [intros _|done].
    destruct (decide (Exists (fun pod => Phase (Status pod) ∉ terminalPhases)
                             (Items podList))) as [Hex|Hnex].
    + apply Exists_exists in Hex as (pod & Hin & Hpod). by exists pod.
    + apply not_Exists_Forall in Hnex; [|apply _].
      assert (CountActive (Items podList) = 0) as Hz; [|lia].
      apply CountActive_zero. intros pod Hin.
      rewrite Forall_forall in Hnex. specialize (Hnex pod Hin). cbn in Hnex.
      destruct (decide (Phase (Status pod) ∈ terminalPhases)); tauto.
  - split; [done|]. intros (pod & Hin & Hpod). exfalso. apply Hpod.
    apply (proj1 (CountActive_zero (Items podList))); [lia | done].
Qed.

(** X5. When the listing succeeds, [GetMetrics] returns exactly one sample:
    the requested name, the number of pods outside Succeeded, Failed and
    Unknown as a DecimalSI quantity, and the clock reading; and no error. *)
Theorem GetMetrics_sample_value s ctx (podList : PodList) (metricName : string)
    (metricSelector : Selector) (now : Time) :
  List (kubeClient s) ctx (query s) = inl podList ->
  Z.of_nat (length (Items podList)) <= int_max ->
  GetMetrics s ctx metricName metricSelector now
  = ([{| MetricName := metricName;
         Value := {| amount := CountActive (Items podList);
                     format := DecimalSI |};
         Timestamp := now |}], None).
Proof.
  intros Hlist Hlen. unfold GetMetrics.
  rewrite getMetricValue_outcome, Hlist.
  pose proof (CountActive_bounds (Items podList)) as Hb.
  rewrite !(wrap_int_id (CountActive (Items podList)))
    by (unfold int_min; lia).
  done.
Qed.

(** X6. [IsActive] and [GetMetrics] agree on the same cluster answer:
    [IsActive] is true exactly when [GetMetrics] returns a sample of positive
    value, and one returns an error exactly when the other does. *)
Theorem IsActive_agrees_with_GetMetrics s ctx (metricName : string)
    (metricSelector : Selector) (now : Time) :
  fst (IsActive s ctx)
  = existsb (fun sample => 0 <? amount (Value sample))
            (fst (GetMetrics s ctx metricName metricSelector now))
  /\ (snd (IsActive s ctx) = None
      <-> snd (GetMetrics s ctx metricName metricSelector now) = None).
Proof.
  unfold IsActive, GetMetrics.
  pose proof (getMetricValue_in_range s ctx) as Hrange.
  destruct (getMetricValue s ctx) as [pods [err|]]; cbn in *.
  - done.
  - rewrite wrap_int_id by done. by rewrite orb_false_r.
Qed.

(** X7. The scaler reports an error only when the listing call does:
    [IsActive] returns the error [e] exactly when the listing failed with
    [e], and [GetMetrics] returns an error exactly when the listing failed,
    the error being the wrapped one. *)
Theorem errors_only_from_listing s ctx (metricName : string)
    (metricSelector : Selector) (now : Time) (e : error) :
  (snd (IsActive s ctx) = Some e
   <-> List (kubeClient s) ctx (query s) = inr e)
  /\ (snd (GetMetrics s ctx metricName metricSelector now) = Some e
      <-> exists cause : error,
            List (kubeClient s) ctx (query s) = inr cause
            /\ e = Errorf_s "error inspecting kubernetes workload: " cause).
Proof.
  unfold IsActive, GetMetrics. rewrite getMetricValue_outcome.
  destruct (List (kubeClient s) ctx (query s)) as [podList|cause]; cbn.
  - split; split; try done. by intros (cause & Hcause & _).
  - split; split.
    + by intros [= ->].
    + by intros [= ->].
    + intros [= <-]. by exists cause.
    + by intros (cause' & [= <-] & ->).
Qed.

End Counting.

Section Decimal.

Import DecimalPos.Unsigned.

Lemma digit_bounds (c : ascii) (d : Z) : digit c = Some d -> 0 <= d <= 9.
Proof.
  unfold digit.
  destruct (Z.leb_spec 48 (Z.of_N (N_of_ascii c)));
    destruct (Z.leb_spec (Z.of_N (N_of_ascii c)) 57); cbn; intros [= <-]; lia.
Qed.

Lemma ParseUint_loop_bounds (s : string) (n : Z) :
  0 <= n <= 2 ^ 64 - 1 -> 0 <= fst (ParseUint_loop s n) <= 2 ^ 64 - 1.
Proof.
  revert n. induction s as [|c s IH]; intros n Hn; cbn [ParseUint_loop].
  - done.
  - destruct (digit c) as [d|] eqn:Hd; [|cbn; lia].
    apply digit_bounds in Hd.
    destruct (Z.ltb_spec (2 ^ 64 - 1) (n * 10 + d)); [cbn; lia|].
    apply IH. lia.
Qed.

(** A value [ParseInt] returns without an error is an int64. *)
Lemma ParseInt_in_range (s : string) (v : Z) :
  ParseInt s = (v, None) -> int_min <= v <= int_max.
Proof.
  unfold ParseInt, int_min, int_max. destruct s as [|c rest]; [done|].
  cbv zeta.
  set (body := if (Ascii.eqb c "+" || Ascii.eqb c "-")%bool then rest else String c rest).
  assert (0 <= fst (ParseUint body) <= 2 ^ 64 - 1) as Hun.
  { unfold ParseUint. destruct body; [cbn; lia|].
    apply ParseUint_loop_bounds. lia. }
  destruct (ParseUint body) as [un [[|]|]]; [done| |]; cbn [fst] in Hun;
    destruct (Ascii.eqb c "-"); cbn [negb andb];
    repeat match goal with
           | |- context [Z.leb ?a ?b] => destruct (Z.leb_spec a b)
           | |- context [Z.ltb ?a ?b] => destruct (Z.ltb_spec a b)
           end; intros [= <-]; lia.
Qed.

Lemma of_lu_revapp_ge (d d' : Decimal.uint) :
  (of_lu d' <= of_lu (Decimal.revapp d d'))%N.
Proof.
  rewrite of_lu_revapp.
  pose proof (N.pow_nonzero 10 (usize d) ltac:(lia)). nia.
Qed.

Lemma ParseUint_loop_decimal (d d' : Decimal.uint) :
  Z.of_N (of_lu d') <= 2 ^ 64 - 1 ->
  ParseUint_loop (NilEmpty.string_of_uint d) (Z.of_N (of_lu d'))
  = if 2 ^ 64 - 1 <? Z.of_N (of_lu (Decimal.revapp d d'))
    then (2 ^ 64 - 1, Some ErrRange)
    else (Z.of_N (of_lu (Decimal.revapp d d')), None).
Proof.
  revert d'.
  induction d as [|d IH|d IH|d IH|d IH|d IH|d IH|d IH|d IH|d IH|d IH];
    intros d' Hacc.
  1: { cbn. by destruct (Z.ltb_spec (2 ^ 64 - 1) (Z.of_N (of_lu d'))); [lia|]. }
  all: cbn [NilEmpty.string_of_uint ParseUint_loop Decimal.revapp].
  all: match goal with
       | |- context [digit ?c] =>
           let k := eval vm_compute in (digit c) in change (digit c) with k
       end; cbv iota beta.
  all: match goal with
       | IH' : forall _, _ |- context [Decimal.revapp ?rest ?next] =>
           replace (Z.of_N (of_lu _) * 10 + _) with (Z.of_N (of_lu next))
             by (cbn [of_lu]; lia);
           pose proof (of_lu_revapp_ge rest next);
           destruct (Z.ltb_spec (2 ^ 64 - 1) (Z.of_N (of_lu next)));
           [ rewrite (proj2 (Z.ltb_lt _ _)) by lia; reflexivity
           | apply IH'; lia ]
       end.
Qed.

Lemma ParseUint_decimal (p : positive) :
  ParseUint (NilEmpty.string_of_uint (Pos.to_uint p))
  = if 2 ^ 64 - 1 <? Z.pos p then (2 ^ 64 - 1, Some ErrRange)
    else (Z.pos p, None).
Proof.
  pose proof (ParseUint_loop_decimal (Pos.to_uint p) Decimal.Nil) as Hloop.
  cbn [of_lu] in Hloop. specialize (Hloop ltac:(cbn; lia)).
  change (Decimal.revapp (Pos.to_uint p) Decimal.Nil)
    with (Decimal.rev (Pos.to_uint p)) in Hloop.
  rewrite <- of_uint_alt, of_to in Hloop. cbn [Z.of_N] in Hloop.
  rewrite <- Hloop. unfold ParseUint.
  pose proof (to_uint_nonnil p) as Hnil.
  by destruct (Pos.to_uint p).
Qed.

Lemma string_of_uint_head (d : Decimal.uint) :
  d <> Decimal.Nil ->
  exists (c : ascii) (rest : string),
    NilEmpty.string_of_uint d = String c rest
    /\ Ascii.eqb c "+" = false /\ Ascii.eqb c "-" = false.
Proof. destruct d; [done|..]; intros _; cbn; eauto. Qed.

(** [ParseInt] reads back the decimal text of an integer, provided it is an
    int64. *)
Lemma ParseInt_itoa (z : Z) :
  ParseInt (itoa z)
  = if decide (int_min <= z <= int_max) then (z, None)
    else ((if z <? 0 then int_min else int_max), Some ErrRange).
Proof.
  unfold itoa, int_min, int_max. destruct z as [|p|p]; cbn [Z.to_int].
  - vm_compute. reflexivity.
  - cbn [NilEmpty.string_of_int].
    destruct (string_of_uint_head (Pos.to_uint p) (to_uint_nonnil p))
      as (c & rest & Hstr & Hplus & Hminus).
    pose proof (ParseUint_decimal p) as Hun. rewrite Hstr in Hun.
    rewrite Hstr. unfold ParseInt. rewrite Hplus, Hminus. cbn [orb negb andb].
    rewrite Hun.
    destruct (Z.ltb_spec (2 ^ 64 - 1) (Z.pos p)).
    + rewrite (proj2 (Z.leb_le _ _)) by lia. by rewrite decide_False by lia.
    + destruct (Z.leb_spec (2 ^ 63) (Z.pos p)).
      * by rewrite decide_False by lia.
      * by rewrite decide_True by lia.
  - cbn [NilEmpty.string_of_int]. unfold ParseInt.
    change (Ascii.eqb "-" "-") with true. change (Ascii.eqb "-" "+") with false.
    cbn [orb negb andb]. rewrite ParseUint_decimal.
    destruct (Z.ltb_spec (2 ^ 64 - 1) (Z.pos p)).
    + rewrite (proj2 (Z.ltb_lt _ _)) by lia. by rewrite decide_False by lia.
    + destruct (Z.ltb_spec (2 ^ 63) (Z.pos p)).
      * by rewrite decide_False by lia.
      * by rewrite decide_True by lia.
Qed.

End Decimal.

Section Construction.

Context {L : Labels} {context : Type}.

Implicit Types (config : ScalerConfig) (client : Client context).

(** The parser returns a descriptor exactly on its last line. *)
Lemma parseWorkloadMetadata_Some config (m : kubernetesWorkloadMetadata) :
  fst (parseWorkloadMetadata config) = Some m
  <-> labels_Parse (index (TriggerMetadata config) podSelectorKey)
      = inl (podSelector m)
      /\ Selector_String (podSelector m) <> ""
      /\ ParseInt (index (TriggerMetadata config) valueKey) = (value m, None)
      /\ value m <> 0
      /\ namespace m = config_Namespace config
      /\ scalerIndex m = ScalerIndex config.
Proof.
  unfold parseWorkloadMetadata. split.
  - destruct (labels_Parse _) as [sel|e]; [|done].
    destruct (String.eqb_spec (Selector_String sel) ""); [done|].
    destruct (ParseInt _) as [v [e|]]; [done|].
    destruct (Z.eqb_spec v 0); [done|].
    cbn. intros [= <-]. done.
  - intros (Hsel & Hstr & Hint & Hv & Hns & Hidx). rewrite Hsel, Hint.
    destruct (String.eqb_spec (Selector_String (podSelector m)) ""); [done|].
    destruct (Z.eqb_spec (value m) 0); [done|].
    cbn. destruct m. cbn in *. by subst.
Qed.

Lemma parseWorkloadMetadata_outcome config :
  (exists m : kubernetesWorkloadMetadata,
     parseWorkloadMetadata config = (Some m, None))
  \/ parseWorkloadMetadata config = (None, Some (Errorf "invalid pod selector"))
  \/ parseWorkloadMetadata config
     = (None, Some (Errorf "value must be an integer greater than 0")).
Proof.
  unfold parseWorkloadMetadata.
  destruct (labels_Parse _) as [sel|e]; [|auto].
  destruct (String.eqb _ _); [auto|].
  destruct (ParseInt _) as [v [e|]]; [auto|].
  destruct (v =? 0); eauto.
Qed.

Lemma NewKubernetesWorkloadScaler_Some client config
    (s : kubernetesWorkloadScaler context) :
  NewKubernetesWorkloadScaler client config = (Some s, None) ->
  kubeClient s = client /\ fst (parseWorkloadMetadata config) = Some (metadata s).
Proof.
  unfold NewKubernetesWorkloadScaler.
  destruct (parseWorkloadMetadata config) as [[m|] [e|]]; try done.
  by intros [= <-].
Qed.

(** X8. The parser returns the descriptor [m] exactly when the selector text
    parses to a selector that does not print as the empty string, the value
    text parses to a non-zero int64, and [m] holds that selector, that value,
    and the namespace and scaler index of the configuration, as they are. *)
Theorem parseWorkloadMetadata_accepts_iff config
    (m : kubernetesWorkloadMetadata) :
  parseWorkloadMetadata config = (Some m, None)
  <-> labels_Parse (index (TriggerMetadata config) podSelectorKey)
      = inl (podSelector m)
      /\ Selector_String (podSelector m) <> ""
      /\ ParseInt (index (TriggerMetadata config) valueKey) = (value m, None)
      /\ value m <> 0
      /\ namespace m = config_Namespace config
      /\ scalerIndex m = ScalerIndex config.
Proof.
  rewrite <- parseWorkloadMetadata_Some. split; [by intros ->|].
  intros Hfst.
  destruct (parseWorkloadMetadata_outcome config) as [[m' Hm]|[He|He]];
    rewrite ?Hm, ?He in Hfst |- *; cbn in Hfst; congruence.
Qed.

(** X9. A configuration without the [value] key, or with an empty one, is
    rejected: no descriptor, an error, and no scaler from the constructor. *)
Theorem missing_value_rejected client config :
  TriggerMetadata config !! valueKey = None
  \/ TriggerMetadata config !! valueKey = Some "" ->
  fst (parseWorkloadMetadata config) = None
  /\ snd (parseWorkloadMetadata config) <> None
  /\ fst (NewKubernetesWorkloadScaler client config) = None
  /\ snd (NewKubernetesWorkloadScaler client config) <> None.
Proof.
  intros Hmissing.
  assert (index (TriggerMetadata config) valueKey = "") as Hidx
    by (unfold index; by destruct Hmissing as [-> | ->]).
  assert (fst (parseWorkloadMetadata config) = None
          /\ snd (parseWorkloadMetadata config) <> None) as [Hfst Hsnd].
  { apply parseWorkloadMetadata_rejects_value. left. by rewrite Hidx. }
  repeat split; try done; unfold NewKubernetesWorkloadScaler;
    destruct (parseWorkloadMetadata config) as [[m|] [e|]]; cbn in *; done.
Qed.

(** X10. Keys of the trigger metadata other than [podSelector] and [value]
    are ignored: adding or overwriting one changes nothing in the result. *)
Theorem other_keys_ignored config (k v : string) :
  k <> podSelectorKey -> k <> valueKey ->
  parseWorkloadMetadata
    {| config_Namespace := config_Namespace config;
       TriggerMetadata := <[k := v]> (TriggerMetadata config);
       ScalerIndex := ScalerIndex config |}
  = parseWorkloadMetadata config.
Proof.
  intros Hsel Hval. unfold parseWorkloadMetadata, index. cbn.
  by rewrite !lookup_insert_ne by done.
Qed.

(** X11. With a selector that is accepted, a [value] written as the decimal
    text of an integer [z] is accepted exactly when [z] is a non-zero int64,
    and the descriptor then carries [z] itself; a negative [z] included. *)
Theorem decimal_value_round_trip config (sel : Selector) (z : Z) :
  labels_Parse (index (TriggerMetadata config) podSelectorKey) = inl sel ->
  Selector_String sel <> "" ->
  index (TriggerMetadata config) valueKey = itoa z ->
  parseWorkloadMetadata config
  = if decide (z <> 0 /\ int_min <= z <= int_max)
    then (Some {| podSelector := sel;
                  namespace := config_Namespace config;
                  value := z;
                  scalerIndex := ScalerIndex config |}, None)
    else (None, Some (Errorf "value must be an integer greater than 0")).
Proof.
  intros Hsel Hstr Hval. unfold parseWorkloadMetadata.
  rewrite Hsel, Hval, ParseInt_itoa.
  destruct (String.eqb_spec (Selector_String sel) ""); [done|].
  destruct (decide (int_min <= z <= int_max)) as [Hrange|Hrange].
  - destruct (Z.eqb_spec z 0).
    + by rewrite decide_False by tauto.
    + by rewrite decide_True by tauto.
  - by rewrite decide_False by tauto.
Qed.

(** X12. The constructor has three outcomes: a scaler holding the parser's
    descriptor and the client it was given, with no error; or no scaler and
    one of two errors, the parser's message behind a fixed prefix. *)
Theorem NewKubernetesWorkloadScaler_outcome client config :
  (exists s : kubernetesWorkloadScaler context,
     NewKubernetesWorkloadScaler client config = (Some s, None)
     /\ kubeClient s = client
     /\ parseWorkloadMetadata config = (Some (metadata s), None))
  \/ NewKubernetesWorkloadScaler client config
     = (None, Some (Errorf "error parsing kubernetes workload metadata: invalid pod selector"))
  \/ NewKubernetesWorkloadScaler client config
     = (None, Some (Errorf "error parsing kubernetes workload metadata: value must be an integer greater than 0")).
Proof.
  unfold NewKubernetesWorkloadScaler.
  destruct (parseWorkloadMetadata_outcome config) as [[m Hm]|[He|He]].
  - left. rewrite Hm. eauto.
  - right; left. by rewrite He.
  - right; right. by rewrite He.
Qed.

(** X13. A scaler the constructor returns satisfies the invariant of the
    descriptor: its selector is the parsed one and does not print as the
    empty string, its target is the parsed value, a non-zero int64, and its
    namespace, scaler index and client are those it was given. *)
Theorem constructed_scaler_invariant client config
    (s : kubernetesWorkloadScaler context) :
  NewKubernetesWorkloadScaler client config = (Some s, None) ->
  labels_Parse (index (TriggerMetadata config) podSelectorKey)
  = inl (LabelSelector (query s))
  /\ Selector_String (podSelector (metadata s)) <> ""
  /\ Namespace (query s) = config_Namespace config
  /\ value (metadata s) <> 0
  /\ int_min <= value (metadata s) <= int_max
  /\ scalerIndex (metadata s) = ScalerIndex config
  /\ kubeClient s = client.
Proof.
  intros Hnew.
  apply NewKubernetesWorkloadScaler_Some in Hnew as [Hclient Hparse].
  apply parseWorkloadMetadata_Some in Hparse
    as (Hsel & Hstr & Hint & Hv & Hns & Hidx).
  apply ParseInt_in_range in Hint. done.
Qed.

(** X14. The metric spec of a scaler built from a configuration: one spec of
    type "External", named after the scaler index and the namespace of the
    configuration, with an average-value target equal to the integer parsed
    from the [value] key, as a DecimalSI quantity. *)
Theorem constructed_scaler_spec (illegal : ascii -> bool) client config
    (s : kubernetesWorkloadScaler context) (ctx : context) :
  NewKubernetesWorkloadScaler client config = (Some s, None) ->
  GetMetricSpecForScaling illegal s ctx
  = [{| External :=
          {| Metric :=
               {| Name :=
                    GenerateMetricNameWithIndex (ScalerIndex config)
                      (NormalizeString illegal
                         ("workload-" +:+ config_Namespace config)) |};
             Target :=
               {| TargetType := AverageValueMetricType;
                  AverageValue :=
                    {| amount :=
                         fst (ParseInt (index (TriggerMetadata config) valueKey));
                       format := DecimalSI |} |} |};
        Type_ := "External" |}].
Proof.
  intros Hnew.
  apply NewKubernetesWorkloadScaler_Some in Hnew as [Hclient Hparse].
  apply parseWorkloadMetadata_Some in Hparse
    as (Hsel & Hstr & Hint & Hv & Hns & Hidx).
  unfold GetMetricSpecForScaling. by rewrite Hint, Hns, Hidx.
Qed.

End Construction.

(** ** Further runs on concrete inputs *)

Lemma getMetricValue_permutation_example :
  getMetricValue (scaler (inl five_pods)) tt
  = getMetricValue (scaler (inl five_pods_reversed)) tt.
Proof.
  refine (getMetricValue_permutation (scaler (inl five_pods))
            (scaler (inl five_pods_reversed)) tt tt five_pods
            five_pods_reversed eq_refl eq_refl _).
  apply Permutation_rev.
Defined.

Lemma getMetricValue_bounded_example :
  0 <= fst (getMetricValue (scaler (inl five_pods)) tt) <= 5.
Proof.
  exact (getMetricValue_bounded (scaler (inl five_pods)) tt five_pods eq_refl
           ltac:(vm_compute; discriminate)).
Defined.

Lemma all_terminal_inactive_example :
  getMetricValue (scaler (inl finished_pods)) tt = (0, None)
  /\ IsActive (scaler (inl finished_pods)) tt = (false, None)
  /\ GetMetrics (scaler (inl finished_pods)) tt "m" [] 7
     = ([{| MetricName := "m";
            Value := {| amount := 0; format := DecimalSI |};
            Timestamp := 7 |}], None).
Proof.
  refine (all_terminal_inactive (scaler (inl finished_pods)) tt finished_pods
            "m" [] 7 eq_refl _).
  intros p Hin. cbn in Hin. rewrite !elem_of_cons, elem_of_nil in Hin.
  destruct Hin as [->|[->|[->|[->|[]]]]]; cbn; repeat constructor.
Defined.

Lemma IsActive_iff_active_pod_example :
  IsActive (scaler (inl five_pods)) tt = (true, None)
  <-> exists p : Pod,
        p ∈ Items five_pods /\ Phase (Status p) ∉ terminalPhases.
Proof.
  exact (IsActive_iff_active_pod (scaler (inl five_pods)) tt five_pods eq_refl
           ltac:(vm_compute; discriminate)).
Defined.

Lemma GetMetrics_sample_value_example :
  GetMetrics (scaler (inl five_pods)) tt "0-workload-default" [] 7
  = ([{| MetricName := "0-workload-default";
         Value := {| amount := 2; format := DecimalSI |};
         Timestamp := 7 |}], None).
Proof.
  exact (GetMetrics_sample_value (scaler (inl five_pods)) tt five_pods
           "0-workload-default" [] 7 eq_refl ltac:(vm_compute; discriminate)).
Defined.

Lemma missing_value_rejected_example :
  fst (parseWorkloadMetadata config_without_value) = None
  /\ snd (parseWorkloadMetadata config_without_value) <> None
  /\ fst (NewKubernetesWorkloadScaler (cluster (inl five_pods))
            config_without_value) = None
  /\ snd (NewKubernetesWorkloadScaler (cluster (inl five_pods))
            config_without_value) <> None.
Proof.
  exact (missing_value_rejected (cluster (inl five_pods)) config_without_value
           (or_introl eq_refl)).
Defined.

Lemma other_keys_ignored_example :
  parseWorkloadMetadata
    {| config_Namespace := "default";
       TriggerMetadata := <["replicas" := "many"]> {[ "podSelector" := "app=web"; "value" := "5" ]};
       ScalerIndex := 0 |}
  = parseWorkloadMetadata (config "app=web" "5").
Proof.
  refine (other_keys_ignored (config "app=web" "5") "replicas" "many" _ _);
    discriminate.
Defined.

Lemma decimal_value_round_trip_example :
  parseWorkloadMetadata (config "app=web" "42")
  = (Some {| podSelector := [("app", "web")];
             namespace := "default";
             value := 42;
             scalerIndex := 0 |}, None)
  /\ parseWorkloadMetadata (config "app=web" "9223372036854775808")
     = (None, Some (Errorf "value must be an integer greater than 0")).
Proof.
  split.
  - refine (decimal_value_round_trip (config "app=web" "42") [("app", "web")]
              42 eq_refl _ eq_refl). discriminate.
  - refine (decimal_value_round_trip (config "app=web" "9223372036854775808")
              [("app", "web")] 9223372036854775808 eq_refl _ eq_refl).
    discriminate.
Defined.

Lemma constructed_scaler_invariant_example :
  labels_Parse (index (TriggerMetadata (config "app=web" "5")) podSelectorKey)
  = inl (LabelSelector (query (scaler (inl five_pods))))
  /\ Selector_String (podSelector (metadata (scaler (inl five_pods)))) <> ""
  /\ Namespace (query (scaler (inl five_pods))) = "default"
  /\ value (metadata (scaler (inl five_pods))) <> 0
  /\ int_min <= value (metadata (scaler (inl five_pods))) <= int_max
  /\ scalerIndex (metadata (scaler (inl five_pods))) = 0
  /\ kubeClient (scaler (inl five_pods)) = cluster (inl five_pods).
Proof.
  exact (constructed_scaler_invariant (cluster (inl five_pods))
           (config "app=web" "5") (scaler (inl five_pods)) eq_refl).
Defined.

Lemma constructed_scaler_spec_example :
  GetMetricSpecForScaling illegal (scaler (inl five_pods)) tt
  = [{| External :=
          {| Metric := {| Name := "0-workload-default" |};
             Target :=
               {| TargetType := AverageValueMetricType;
                  AverageValue := {| amount := 5; format := DecimalSI |} |} |};
        Type_ := "External" |}].
Proof.
  exact (constructed_scaler_spec illegal (cluster (inl five_pods))
           (config "app=web" "5") (scaler (inl five_pods)) tt eq_refl).
Defined.
